(** * A shallow embedding of [cuda_setup.py] (colobas/cusim)

    The module locates a CUDA toolchain, derives the nvcc flags from the
    toolchain version, and routes [.cu] sources of a setuptools build
    through nvcc.  Integers are [Z], Python strings are [string], Python
    lists are [list], and [os.environ] is a partial map from names to
    strings.  Exceptions are the constructors of [exn] below. *)

From Stdlib Require Import ZArith List String Ascii Bool Lia.
Import ListNotations.
Open Scope string_scope.
Open Scope list_scope.
Open Scope Z_scope.

(** ** Python values used by the module *)

(** The exceptions the embedded code can raise. *)
Inductive exn : Type :=
| KeyError (key : string)
| IndexError
| ValueError (literal : string)
| AssertionError (major minor : Z)
    (* [assert cuda_ver >= 70, f"too low cuda ver {major}.{minor}"] *)
| NameError (name : string)
| DistutilsPlatformError
| CompileError (cmd : list string)
| BadQuotes (quote : ascii).
    (* [ValueError("bad string (mismatched %s quotes?)" % quote)] of
       [distutils.util.split_quoted] *)

(** A Python computation either returns a value or raises. *)
Inductive pyresult (A : Type) : Type :=
| Ok (a : A)
| Raise (e : exn).
Arguments Ok {A} a.
Arguments Raise {A} e.

(** [os.environ]. *)
Definition environ := string -> option string.

(** Python [str.__eq__] and [x in xs] for a list of strings. *)
Definition py_in (x : string) (xs : list string) : bool :=
  existsb (String.eqb x) xs.

(** ** ArchitectureResolver: [get_cuda_sm_list], [get_cuda_compute],
    [get_cuda_arch] *)

(** Python [str.split(sep)] for a one-character separator: every
    occurrence splits, empty pieces are kept. *)
Fixpoint split_on (sep : ascii) (s : string) : list string :=
  match s with
  | EmptyString => [EmptyString]
  | String c rest =>
      match split_on sep rest with
      | [] => [] (* unreachable: the result is never empty *)
      | piece :: pieces =>
          if Ascii.eqb c sep then EmptyString :: piece :: pieces
          else String c piece :: pieces
      end
  end.

(** The base list of [get_cuda_sm_list]. *)
Definition base_sm_list : list string :=
  ["30"; "52"; "60"; "61"; "70"; "75"; "80"; "86"].

(** The [filter_list] of [get_cuda_sm_list], built with the same
    [+=] steps as the source. *)
Definition sm_filter_list (cuda_ver : Z) : list string :=
  if cuda_ver >=? 110 then
    (["30"] ++ (if cuda_ver =? 110 then ["86"] else []))
  else
    (["80"; "86"]
     ++ (if cuda_ver <? 100 then ["75"] else [])
     ++ (if cuda_ver <? 90 then ["70"] else [])
     ++ (if cuda_ver <? 80 then ["60"; "61"] else [])).

Definition get_cuda_sm_list (env : environ) (cuda_ver : Z) : list string :=
  match env "CUDA_SM_LIST" with
  | Some v => split_on "," v
  | None =>
      let filter_list := sm_filter_list cuda_ver in
      filter (fun sm => negb (py_in sm filter_list)) base_sm_list
  end.

Definition get_cuda_compute (env : environ) (cuda_ver : Z) : string :=
  match env "CUDA_COMPUTE" with
  | Some v => v
  | None =>
      if (70 <=? cuda_ver) && (cuda_ver <? 80) then "52"
      else if (80 <=? cuda_ver) && (cuda_ver <? 90) then "61"
      else if (90 <=? cuda_ver) && (cuda_ver <? 100) then "70"
      else if (100 <=? cuda_ver) && (cuda_ver <? 110) then "75"
      else if cuda_ver =? 110 then "80"
      else if (111 <=? cuda_ver) && (cuda_ver <? 115) then "86"
      else if (115 <=? cuda_ver) && (cuda_ver <? 120) then "89"
      else if (120 <=? cuda_ver) && (cuda_ver <=? 128) then "90"
      else "90" (* Fallback for versions outside known ranges *)
  end.

Definition get_cuda_arch (env : environ) (cuda_ver : Z) : string :=
  match env "CUDA_ARCH" with
  | Some v => v
  | None =>
      if (70 <=? cuda_ver) && (cuda_ver <? 92) then "30"
      else if (92 <=? cuda_ver) && (cuda_ver <? 110) then "50"
      else if cuda_ver =? 110 then "52"
      else if (111 <=? cuda_ver) && (cuda_ver <? 120) then "80"
      else if (120 <=? cuda_ver) && (cuda_ver <=? 128) then "90"
      else "90" (* Fallback for versions outside known ranges *)
  end.

(** *** The tables of the design document, for the refinement proofs *)

(** A row of a version table: [[lo,hi)], [[lo,hi]] or a single
    version. *)
Inductive vrange : Type :=
| HalfOpen (lo hi : Z)
| Closed (lo hi : Z)
| Single (v : Z).

Definition in_vrange (v : Z) (r : vrange) : bool :=
  match r with
  | HalfOpen lo hi => (lo <=? v) && (v <? hi)
  | Closed lo hi => (lo <=? v) && (v <=? hi)
  | Single x => v =? x
  end.

(** The flag of the first row containing [v], else the fallback. *)
Definition table_lookup (rows : list (vrange * string)) (fallback : string)
    (v : Z) : string :=
  match find (fun row => in_vrange v (fst row)) rows with
  | Some (_, flag) => flag
  | None => fallback
  end.

(** The archFlag table. *)
Definition spec_arch_table : list (vrange * string) :=
  [(HalfOpen 70 92, "30"); (HalfOpen 92 110, "50"); (Single 110, "52");
   (HalfOpen 111 120, "80"); (Closed 120 128, "90")].

Definition spec_arch_flag (v : Z) : string :=
  table_lookup spec_arch_table "90" v.

(** The computeFlag table. *)
Definition spec_compute_table : list (vrange * string) :=
  [(HalfOpen 70 80, "52"); (HalfOpen 80 90, "61"); (HalfOpen 90 100, "70");
   (HalfOpen 100 110, "75"); (Single 110, "80"); (HalfOpen 111 115, "86");
   (HalfOpen 115 120, "89"); (Closed 120 128, "90")].

Definition spec_compute_flag (v : Z) : string :=
  table_lookup spec_compute_table "90" v.

(** The exclusion set of the design document, as a predicate. *)
Definition spec_excluded (v : Z) (sm : string) : bool :=
  if v >=? 110 then
    String.eqb sm "30" || ((v =? 110) && String.eqb sm "86")
  else
    String.eqb sm "80" || String.eqb sm "86"
    || ((v <? 100) && String.eqb sm "75")
    || ((v <? 90) && String.eqb sm "70")
    || ((v <? 80) && (String.eqb sm "60" || String.eqb sm "61")).

(** The base list minus the exclusion set, order preserved. *)
Definition spec_sm_list (v : Z) : list string :=
  filter (fun sm => negb (spec_excluded v sm)) base_sm_list.

(** ** Python string helpers used by [locate_cuda] *)

(** [str.isspace] on the ASCII range: the characters [int()] strips. *)
Definition py_isspace (c : ascii) : bool :=
  let n := nat_of_ascii c in
  ((9 <=? n) && (n <=? 13))%nat || ((28 <=? n) && (n <=? 32))%nat.

Fixpoint drop_spaces (l : list ascii) : list ascii :=
  match l with
  | c :: t => if py_isspace c then drop_spaces t else l
  | [] => []
  end.

Definition py_strip (l : list ascii) : list ascii :=
  rev (drop_spaces (rev (drop_spaces l))).

Definition digit_value (c : ascii) : option Z :=
  let n := nat_of_ascii c in
  if ((48 <=? n) && (n <=? 57))%nat then Some (Z.of_nat n - 48) else None.

(** Decimal digits with single underscores between digits, as [int()]
    reads them; [after_digit] says whether the last character read was a
    digit. *)
Fixpoint parse_digits (l : list ascii) (acc : Z) (after_digit : bool)
  : option Z :=
  match l with
  | [] => if after_digit then Some acc else None
  | c :: t =>
      match digit_value c with
      | Some d => parse_digits t (10 * acc + d) true
      | None =>
          if Ascii.eqb c "_" && after_digit then parse_digits t acc false
          else None
      end
  end.

(** [int(s)] for a Python [str] in base 10. *)
Definition py_int_opt (s : string) : option Z :=
  match py_strip (list_ascii_of_string s) with
  | "-"%char :: t => option_map Z.opp (parse_digits t 0 false)
  | "+"%char :: t => parse_digits t 0 false
  | l => parse_digits l 0 false
  end.

(** [str.startswith]. *)
Fixpoint starts_with (p s : string) : bool :=
  match p, s with
  | EmptyString, _ => true
  | String a p', String b s' => Ascii.eqb a b && starts_with p' s'
  | String _ _, EmptyString => false
  end.

(** [sub in s] for Python strings: substring containment. *)
Fixpoint py_contains (sub s : string) : bool :=
  starts_with sub s
  || match s with
     | EmptyString => false
     | String _ s' => py_contains sub s'
     end.

(** ** The log and the exception monad of [locate_cuda] *)

(** What [locate_cuda] writes: its two [logging.warning] calls and its
    two [print] calls. *)
Inductive event : Type :=
| WarnNvccNotFound
    (* 'The nvcc binary could not be located in your $PATH. ...' *)
| WarnPathMissing (k v : string)
    (* 'The CUDA %s path could not be located in %s' % (k, val) *)
| PrintCudaVer (major minor : Z)
    (* f"cuda_ver: {major}.{minor}" *)
| PrintPostArgs (post_args : list string)
    (* f"nvcc post args: {post_args}" *).

(** A computation writes events and then returns or raises. *)
Definition M (A : Type) : Type := (list event * pyresult A)%type.

Definition ret {A} (a : A) : M A := ([], Ok a).
Definition raise {A} (e : exn) : M A := ([], Raise e).
Definition emit (ev : event) : M unit := ([ev], Ok tt).

Definition bind {A B} (m : M A) (k : A -> M B) : M B :=
  match m with
  | (l, Ok a) => let (l', r) := k a in (l ++ l', r)
  | (l, Raise e) => (l, Raise e)
  end.

Notation "x <- m ;; k" := (bind m (fun x => k))
  (at level 61, m at next level, right associativity).
Notation "m ;; k" := (bind m (fun _ => k))
  (at level 61, right associativity).

(** [int(s)], raising [ValueError] on a malformed literal. *)
Definition py_int (s : string) : M Z :=
  match py_int_opt s with
  | Some z => ret z
  | None => raise (ValueError s)
  end.

(** [xs[i]] for a non-negative index. *)
Definition py_index {A} (xs : list A) (i : nat) : M A :=
  match nth_error xs i with
  | Some x => ret x
  | None => raise IndexError
  end.

(** ** The host: environment, platform, file system and [os.path] *)

(** Everything [locate_cuda] reads from the host.  The [os.path]
    operations are fields, since they are [posixpath] or [ntpath]
    depending on the host; [posix_world] below fills them in for POSIX. *)
Record World : Type := {
  w_environ : environ;
  w_platform : string;                 (* sys.platform *)
  w_exists : string -> bool;           (* os.path.exists *)
  w_realpath : string -> string;       (* os.path.realpath *)
  w_abspath : string -> string;        (* os.path.abspath *)
  w_join : string -> string -> string; (* os.path.join, two arguments *)
  w_dirname : string -> string;        (* os.path.dirname *)
  w_basename : string -> string;       (* os.path.basename *)
  w_pathsep : ascii;                   (* os.pathsep *)
  w_half_precision : bool              (* HALF_PRECISION *)
}.

(** [os.environ[name]]. *)
Definition environ_get (w : World) (name : string) : M string :=
  match w_environ w name with
  | Some v => ret v
  | None => raise (KeyError name)
  end.

(** [os.path.join(a, b, c)] folds the two-argument join. *)
Definition join3 (w : World) (a b c : string) : string :=
  w_join w (w_join w a b) c.

(** ** ToolchainLocator: [find_in_path] and [locate_cuda] *)

Fixpoint find_in_dirs (w : World) (name : string) (dirs : list string)
  : option string :=
  match dirs with
  | [] => None
  | _dir :: rest =>
      let binpath := w_join w _dir name in
      if w_exists w binpath then Some (w_abspath w binpath)
      else find_in_dirs w name rest
  end.

Definition find_in_path (w : World) (name path : string) : option string :=
  find_in_dirs w name (split_on (w_pathsep w) path).

(** The first of the home variables present in [os.environ]. *)
Fixpoint first_env (env : environ) (names : list string) : option string :=
  match names with
  | [] => None
  | env_name :: rest =>
      match env env_name with
      | Some home => Some home
      | None => first_env env rest
      end
  end.

(** The configuration [locate_cuda] returns: the dict with keys
    'home', 'nvcc', 'include', 'lib64' and 'post_args'. *)
Record cuda_config : Type := {
  cfg_home : string;
  cfg_nvcc : string;
  cfg_include : string;
  cfg_lib64 : string;
  cfg_post_args : list string
}.

(** Lines 113-134: the binary name, the home variables, then the search
    of [$PATH].  The result is [(home, nvcc)], or [None] after the
    warning. *)
Definition discover_home (w : World) : M (option (string * string)) :=
  let nvcc_bin :=
    if starts_with "win" (w_platform w) then "nvcc.exe" else "nvcc" in
  match first_env (w_environ w) ["CUDA_PATH"; "CUDAHOME"; "CUDA_HOME"] with
  | Some home => ret (Some (home, join3 w home "bin" nvcc_bin))
  | None =>
      path <- environ_get w "PATH" ;;
      match find_in_path w nvcc_bin path with
      | None => emit WarnNvccNotFound ;; ret None
      | Some nvcc => ret (Some (w_dirname w (w_dirname w nvcc), nvcc))
      end
  end.

(** Lines 139-142: the try splits on "-" and indexes [1], which raises
    [IndexError] when there is no "-"; the bare except splits the whole
    name on ".". *)
Definition split_cuda_ver (name : string) : list string :=
  match split_on "-" name with
  | _ :: second :: _ => split_on "." second
  | _ => split_on "." name
  end.

(** Lines 139-145: [major, minor = int(cuda_ver[0]), int(cuda_ver[1])],
    [cuda_ver = 10 * major + minor] and the assertion. *)
Definition parse_cuda_ver (w : World) (home : string) : M (Z * Z) :=
  let cuda_ver := split_cuda_ver (w_basename w (w_realpath w home)) in
  s0 <- py_index cuda_ver 0 ;;
  major <- py_int s0 ;;
  s1 <- py_index cuda_ver 1 ;;
  minor <- py_int s1 ;;
  if 10 * major + minor >=? 70 then ret (major, minor)
  else raise (AssertionError major minor).

(** Lines 150-153. *)
Definition assemble_post_args (arch : string) (sm_list : list string)
    (compute : string) : list string :=
  ["-arch=sm_" ++ arch]%string
  ++ map (fun sm => "-gencode=arch=compute_" ++ sm ++ ",code=sm_" ++ sm)%string
         sm_list
  ++ ["-gencode=arch=compute_" ++ compute ++ ",code=compute_" ++ compute;
      "--ptxas-options=-v"; "-O2"]%string.

(** Line 156. *)
Definition drop_52 (post_args : list string) : list string :=
  filter (fun flag => negb (py_contains "52" flag)) post_args.

(** Lines 158-167: the platform branch sets the 'lib64' entry and the
    flags appended after the filter. *)
Definition platform_lib64 (w : World) (home : string) : string :=
  if String.eqb (w_platform w) "win32" then join3 w home "lib" "x64"
  else w_join w home "lib64".

Definition platform_args (w : World) : list string :=
  if String.eqb (w_platform w) "win32" then
    ["-Xcompiler"; "/MD"; "-std=c++14"; "-Xcompiler"; "/openmp"]
    ++ (if w_half_precision w then ["-Xcompiler"; "/D HALF_PRECISION"]
        else [])
  else
    ["-c"; "--compiler-options"; "'-fPIC'";
     "--compiler-options"; "'-std=c++14'"]
    ++ (if w_half_precision w
        then ["--compiler-options"; "'-D HALF_PRECISION'"] else []).

(** The items of [cudaconfig] at line 168, in insertion order (the
    win32 branch overwrites 'lib64' in place). *)
Definition cudaconfig_items (w : World) (home nvcc : string)
  : list (string * string) :=
  [("home", home); ("nvcc", nvcc);
   ("include", w_join w home "include");
   ("lib64", platform_lib64 w home)].

(** Lines 168-171: the first missing path is reported and stops the
    loop. *)
Fixpoint validate (w : World) (items : list (string * string)) : M bool :=
  match items with
  | [] => ret true
  | (k, val) :: rest =>
      if w_exists w val then validate w rest
      else emit (WarnPathMissing k val) ;; ret false
  end.

(** Lines 135-174, once [home] and [nvcc] are known. *)
Definition locate_from_home (w : World) (home nvcc : string)
  : M (option cuda_config) :=
  mm <- parse_cuda_ver w home ;;
  let (major, minor) := mm in
  let cuda_ver := 10 * major + minor in
  emit (PrintCudaVer major minor) ;;
  let env := w_environ w in
  let arch := get_cuda_arch env cuda_ver in
  let sm_list := get_cuda_sm_list env cuda_ver in
  let compute := get_cuda_compute env cuda_ver in
  let post_args := assemble_post_args arch sm_list compute in
  emit (PrintPostArgs post_args) ;;
  let post_args :=
    if w_half_precision w then drop_52 post_args else post_args in
  let post_args := post_args ++ platform_args w in
  ok <- validate w (cudaconfig_items w home nvcc) ;;
  if ok then
    ret (Some {| cfg_home := home; cfg_nvcc := nvcc;
                 cfg_include := w_join w home "include";
                 cfg_lib64 := platform_lib64 w home;
                 cfg_post_args := post_args |})
  else ret None.

Definition locate_cuda (w : World) : M (option cuda_config) :=
  found <- discover_home w ;;
  match found with
  | None => ret None
  | Some (home, nvcc) => locate_from_home w home nvcc
  end.

(** ** [posixpath], for hosts other than Windows *)

Definition slash : ascii := "/".

(** [posixpath.join(a, b)]. *)
Definition posix_join (a b : string) : string :=
  if starts_with "/" b then b
  else if String.eqb a "" then b
  else match rev (list_ascii_of_string a) with
       | c :: _ => if Ascii.eqb c slash then a ++ b else a ++ "/" ++ b
       | [] => b
       end.

(** Splits a reversed path at its last separator: the reversed tail and
    the reversed head (with the separator). *)
Fixpoint break_rev (r : list ascii) : list ascii * list ascii :=
  match r with
  | [] => ([], [])
  | c :: t =>
      if Ascii.eqb c slash then ([], r)
      else let (b, h) := break_rev t in (c :: b, h)
  end.

(** [posixpath.basename]: [p[p.rfind('/') + 1:]]. *)
Definition posix_basename (p : string) : string :=
  string_of_list_ascii (rev (fst (break_rev (rev (list_ascii_of_string p))))).

Fixpoint drop_slashes (r : list ascii) : list ascii :=
  match r with
  | c :: t => if Ascii.eqb c slash then drop_slashes t else r
  | [] => []
  end.

(** [posixpath.dirname]: the head, with trailing separators removed
    unless it consists of separators only. *)
Definition posix_dirname (p : string) : string :=
  let h := snd (break_rev (rev (list_ascii_of_string p))) in
  match drop_slashes h with
  | [] => string_of_list_ascii (rev h)
  | h' => string_of_list_ascii (rev h')
  end.

(** A POSIX host ([sys.platform] is [plat]) whose [os.environ] is given
    as an association list.  [realpath] and [abspath] are the identity:
    the host has no symbolic links and every path used is absolute and
    normal. *)
Definition assoc_env (kvs : list (string * string)) : environ :=
  fun name =>
    option_map snd (find (fun kv => String.eqb (fst kv) name) kvs).

Definition posix_world (plat : string) (kvs : list (string * string))
    (exists_ : string -> bool) (half : bool) : World :=
  {| w_environ := assoc_env kvs;
     w_platform := plat;
     w_exists := exists_;
     w_realpath := fun p => p;
     w_abspath := fun p => p;
     w_join := posix_join;
     w_dirname := posix_dirname;
     w_basename := posix_basename;
     w_pathsep := ":";
     w_half_precision := half |}.

Example posix_dirname_ex :
  posix_dirname "/usr/local/cuda-11.2/bin/nvcc" = "/usr/local/cuda-11.2/bin".
Proof. reflexivity. Qed.
Example posix_basename_ex :
  posix_basename "/usr/local/cuda-11.2" = "cuda-11.2".
Proof. reflexivity. Qed.
Example posix_join_ex : posix_join "/usr/" "lib64" = "/usr/lib64".
Proof. reflexivity. Qed.
Example py_int_ex : py_int_opt " +1_1 " = Some 11 /\ py_int_opt "1__1" = None
  /\ py_int_opt "cuda" = None /\ py_int_opt "-07" = Some (-7).
Proof. repeat split. Qed.

(** ** CompilerDispatcher: [_UnixCCompiler._compile] *)

(** The state of a distutils compiler object that the dispatch touches:
    [compiler_so] (the command prefix of a compile) and the commands
    spawned so far. *)
Record ccompiler : Type := {
  compiler_so : list string;
  spawned : list (list string)
}.

Definition with_compiler_so (self : ccompiler) (v : list string) : ccompiler :=
  {| compiler_so := v; spawned := spawned self |}.

(** [posixpath.splitext(p)[1]]: the last dot of the base name starts the
    extension, unless only dots precede it in the base name. *)
Fixpoint break_dot (r : list ascii) : list ascii * list ascii :=
  match r with
  | [] => ([], [])
  | c :: t =>
      if Ascii.eqb c "." then ([], r)
      else let (e, h) := break_dot t in (c :: e, h)
  end.

Definition splitext_ext (p : string) : string :=
  let base := fst (break_rev (rev (list_ascii_of_string p))) in
  (* [base] is the base name, reversed *)
  match break_dot base with
  | (ext_rev, _ :: before) =>
      if existsb (fun c => negb (Ascii.eqb c ".")) before
      then string_of_list_ascii ("."%char :: rev ext_rev)
      else ""
  | (_, []) => ""
  end.

Example splitext_ext_ex :
  splitext_ext "src/kernel.cu" = ".cu" /\ splitext_ext "a.b/c" = ""
  /\ splitext_ext "dir/.cu" = "" /\ splitext_ext "x.tar.cu" = ".cu".
Proof. repeat split. Qed.

(** [distutils.util.split_quoted] (Python 3), which [set_executable]
    applies to a string value. *)
Module distutils_util.

(** [string.whitespace]: the characters the regular expressions and the
    word split test. *)
Definition is_whitespace (c : ascii) : bool :=
  let n := nat_of_ascii c in ((9 <=? n) && (n <=? 13))%nat || (n =? 32)%nat.

(** A character matched by [_wordchars_re]: neither whitespace, nor a
    backslash, nor a single or double quote (code 34). *)
Definition is_wordchar (c : ascii) : bool :=
  negb (is_whitespace c) && negb (Ascii.eqb c "\") && negb (Ascii.eqb c "'")
  && negb (Ascii.eqb c "034").

(** The length of the match of [_wordchars_re] at the head of [l]. *)
Fixpoint word_len (l : list ascii) : nat :=
  match l with
  | c :: t => if is_wordchar c then S (word_len t) else 0
  | [] => 0
  end.

(** [_squote_re] and [_dquote_re]: the quote [q], then characters other
    than [q] and backslash or a backslash and any character, then [q];
    with the opening quote already read: the length of the rest of the
    match, closing quote included, or [None] when the regex fails ([.]
    does not match a newline). *)
Fixpoint quote_len (q : ascii) (l : list ascii) : option nat :=
  match l with
  | [] => None
  | c :: t =>
      if Ascii.eqb c q then Some 1%nat
      else if Ascii.eqb c "\" then
        match t with
        | [] => None
        | d :: t' =>
            if Ascii.eqb d "010" then None
            else option_map (fun n => S (S n)) (quote_len q t')
        end
      else option_map S (quote_len q t)
  end.

(** One pass of the [while s:] loop on the current [s] and [pos]; [Ok
    (inr words)] is a [break], [Ok (inl (s, pos, words))] goes round
    again. *)
Definition split_step (s : list ascii) (pos : nat) (words : list string)
  : pyresult (list ascii * nat * list string + list string) :=
  let end_ := (pos + word_len (skipn pos s))%nat in
  let after (s' : list ascii) (pos' : nat) (words' : list string) :=
    if (List.length s' <=? pos')%nat
    then Ok (inr (words' ++ [string_of_list_ascii s']))
    else Ok (inl (s', pos', words')) in
  if (end_ =? List.length s)%nat then
    Ok (inr (words ++ [string_of_list_ascii (firstn end_ s)]))
  else
    match nth_error s end_ with
    | None => Ok (inr words) (* [end_ < len(s)] here *)
    | Some c =>
        if is_whitespace c then
          after (drop_spaces (skipn end_ s)) 0%nat
            (words ++ [string_of_list_ascii (firstn end_ s)])
        else if Ascii.eqb c "\" then
          after (firstn end_ s ++ skipn (S end_) s) (S end_) words
        else
          match quote_len c (skipn (S end_) s) with
          | None => Raise (BadQuotes c)
          | Some n =>
              (* [beg = end_], [m.end() = end_ + 1 + n] *)
              after (firstn end_ s ++ firstn (n - 1)%nat (skipn (S end_) s)
                       ++ skipn (S end_ + n)%nat s)
                (end_ + n - 1)%nat words
          end
    end.

(** The loop; every pass that goes round again shortens [s], so
    [len(s) + 1] passes suffice. *)
Fixpoint split_loop (fuel : nat) (s : list ascii) (pos : nat)
    (words : list string) : pyresult (list string) :=
  match fuel, s with
  | _, [] => Ok words
  | O, _ => Ok words
  | S fuel, _ =>
      match split_step s pos words with
      | Raise e => Raise e
      | Ok (inr words) => Ok words
      | Ok (inl (s, pos, words)) => split_loop fuel s pos words
      end
  end.

Definition split_quoted (s : string) : pyresult (list string) :=
  let s := py_strip (list_ascii_of_string s) in
  split_loop (S (List.length s)) s 0 [].

Example split_quoted_ex :
  split_quoted "  gcc -O2 " = Ok ["gcc"; "-O2"]
  /\ split_quoted "/opt/my cuda/bin/nvcc" = Ok ["/opt/my"; "cuda/bin/nvcc"]
  /\ split_quoted "a 'b c'd \ e" = Ok ["a"; "b cd"; " e"]
  /\ split_quoted "/home/o'neil/nvcc" = Raise (BadQuotes "'").
Proof. repeat split. Qed.

End distutils_util.

Section Dispatch.

(** [distutils.util.split_quoted], which raises on an unmatched quote. *)
Variable split_quoted : string -> pyresult (list string).

(** [self.set_executable('compiler_so', value)] for a string value. *)
Definition set_executable_so (self : ccompiler) (value : string)
  : pyresult ccompiler :=
  match split_quoted value with
  | Ok argv => Ok (with_compiler_so self argv)
  | Raise e => Raise e
  end.

(** The super-class step [unixccompiler.UnixCCompiler._compile(self, obj,
    src, ext, cc_args, extra_postargs, pp_opts)]; it returns [None]. *)
Variable base_compile : ccompiler -> string -> string -> string ->
  list string -> list string -> list string -> ccompiler * pyresult unit.

(** Lines 183-200, [CUDA] being the configuration [locate_cuda] returned
    (the module asserts it is not [None]).  The [finally] clause writes
    the saved [compiler_so] back whatever the [try] block did, also when
    [set_executable] raises before the super-class step. *)
Definition _compile (CUDA : cuda_config) (self : ccompiler)
    (obj src ext : string) (cc_args extra_postargs pp_opts : list string)
  : ccompiler * pyresult unit :=
  if negb (String.eqb (splitext_ext src) ".cu") then
    base_compile self obj src ext cc_args extra_postargs pp_opts
  else
    let _compiler_so := compiler_so self in
    let nvcc_path := cfg_nvcc CUDA in
    let post_args := cfg_post_args CUDA in
    match set_executable_so self nvcc_path with
    | Raise e => (with_compiler_so self _compiler_so, Raise e)
    | Ok self =>
        let (self, r) := base_compile self obj src ext cc_args post_args pp_opts in
        (with_compiler_so self _compiler_so, r)
    end.

End Dispatch.


(** ** Compiler selection: [CudaBuildExt.run] *)

(** What [new_compiler] hands to [build_ext]: a class of distutils' own
    table, or a class of this module built as [CCompiler(None, dry_run,
    force)]. *)
Inductive compiler_impl : Type :=
| StdCompiler (name : string)
| ModuleCompiler (cls : string) (dry_run force : bool).

(** The keys of distutils' [compiler_class] table. *)
Definition distutils_compiler_class : list string :=
  ["unix"; "msvc"; "cygwin"; "mingw32"; "bcpp"].

(** [ccompiler.new_compiler(compiler=..., dry_run=..., force=...)]:
    [None] selects the platform default; an unknown name raises
    [DistutilsPlatformError]. *)
Definition new_compiler (default : string) (compiler : option string)
  : pyresult compiler_impl :=
  let name := match compiler with Some c => c | None => default end in
  if py_in name distutils_compiler_class then Ok (StdCompiler name)
  else Raise DistutilsPlatformError.

(** The global names bound in [cuda_setup.py] once it is imported. *)
Definition module_globals : list string :=
  ["logging"; "os"; "sys"; "numpy"; "ccompiler"; "errors"; "unixccompiler";
   "setuptools_build_ext"; "HALF_PRECISION"; "find_in_path";
   "get_cuda_sm_list"; "get_cuda_compute"; "get_cuda_arch"; "locate_cuda";
   "_UnixCCompiler"; "CudaBuildExt"; "CUDA"; "BUILDEXT"].

(** Reading a global name from the function body: a name the module does
    not bind (and no builtin has) raises [NameError]. *)
Definition load_global (name : string) : pyresult string :=
  if py_in name module_globals then Ok name else Raise (NameError name).

(** [_wrap_new_compiler], applied to the outcome of the wrapped
    [new_compiler] call. *)
Definition _wrap_new_compiler (platform : string)
    (inner : pyresult compiler_impl) (dry_run force : bool)
  : pyresult compiler_impl :=
  match inner with
  | Raise DistutilsPlatformError =>
      let name :=
        if negb (String.eqb platform "win32") then "_UnixCCompiler"
        else "_MSVCCompiler" in
      match load_global name with
      | Ok CCompiler => Ok (ModuleCompiler CCompiler dry_run force)
      | Raise e => Raise e
      end
  | r => r
  end.

(** The compiler [build_ext.run] obtains under [CudaBuildExt.run]: with a
    configuration, [self.compiler] is 'nvidia' and [new_compiler] is
    wrapped; without one, the standard call runs. *)
Definition build_ext_compiler (CUDA : option cuda_config) (platform : string)
    (default : string) (self_compiler : option string) (dry_run force : bool)
  : pyresult compiler_impl :=
  match CUDA with
  | Some _ =>
      _wrap_new_compiler platform (new_compiler default (Some "nvidia"))
        dry_run force
  | None => new_compiler default self_compiler
  end.

(** * Properties *)

(** ** Auxiliary lemmas *)

Ltac split_Z_tests :=
  repeat match goal with
         | |- context [Z.eqb ?x ?y] => case (Z.eqb_spec x y); intro
         | |- context [Z.ltb ?x ?y] => case (Z.ltb_spec x y); intro
         | |- context [Z.leb ?x ?y] => case (Z.leb_spec x y); intro
         end; simpl; try lia; try reflexivity.

Lemma bind_Ok_inv {A B} (m : M A) (k : A -> M B) (l : list event) (b : B) :
  bind m k = (l, Ok b) ->
  exists l1 a l2, m = (l1, Ok a) /\ k a = (l2, Ok b) /\ l = l1 ++ l2.
Proof.
  unfold bind. destruct m as [l1 [a | e]].
  - destruct (k a) as [l2 r] eqn:Hk. intros H. inversion H; subst.
    exists l1, a, l2. auto.
  - discriminate.
Qed.

Lemma bind_Ok {A B} (m : M A) (k : A -> M B) l1 a :
  m = (l1, Ok a) -> bind m k = (l1 ++ fst (k a), snd (k a)).
Proof. intros ->. simpl. destruct (k a); reflexivity. Qed.

Lemma bind_Raise {A B} (m : M A) (k : A -> M B) l e :
  m = (l, Raise e) -> bind m k = (l, Raise e).
Proof. intros ->. reflexivity. Qed.

(** ** ArchitectureResolver *)

(** C1: with [CUDA_ARCH] and [CUDA_COMPUTE] unset, [get_cuda_arch] and
    [get_cuda_compute] return, for every integer version, the flag of the
    tabulated range containing it (boundaries as in the tables, 110 a
    row of its own), and "90" outside every range. *)
Theorem resolver_matches_tables (env : environ) (v : Z)
    (Harch : env "CUDA_ARCH" = None) (Hcompute : env "CUDA_COMPUTE" = None) :
  get_cuda_arch env v = spec_arch_flag v
  /\ get_cuda_compute env v = spec_compute_flag v.
Proof.
  unfold get_cuda_arch, get_cuda_compute, spec_arch_flag, spec_compute_flag,
    table_lookup, spec_arch_table, spec_compute_table.
  rewrite Harch, Hcompute. simpl.
  split; split_Z_tests.
Qed.

Lemma resolver_matches_tables_witness :
  assoc_env [] "CUDA_ARCH" = None /\ assoc_env [] "CUDA_COMPUTE" = None
  /\ get_cuda_arch (assoc_env []) 110 = "52"
  /\ get_cuda_compute (assoc_env []) 110 = "80".
Proof.
  destruct (resolver_matches_tables (assoc_env []) 110 eq_refl eq_refl)
    as [Ha Hc].
  rewrite Ha, Hc. repeat split.
Defined.

(** C2: with [CUDA_SM_LIST] unset, [get_cuda_sm_list] is the base list
    minus the exclusion set of the design document, order preserved;
    for version 110 it is ["52","60","61","70","75","80"]. *)
Theorem sm_list_is_base_minus_excluded (env : environ) (v : Z)
    (Hsm : env "CUDA_SM_LIST" = None) :
  get_cuda_sm_list env v = spec_sm_list v
  /\ get_cuda_sm_list env 110 = ["52"; "60"; "61"; "70"; "75"; "80"].
Proof.
  unfold get_cuda_sm_list, spec_sm_list, spec_excluded, sm_filter_list.
  rewrite Hsm. split; [| reflexivity].
  destruct (v >=? 110), (v =? 110), (v <? 100), (v <? 90), (v <? 80);
    reflexivity.
Qed.

Lemma sm_list_is_base_minus_excluded_witness :
  assoc_env [] "CUDA_SM_LIST" = None
  /\ get_cuda_sm_list (assoc_env []) 95 = spec_sm_list 95.
Proof.
  split; [reflexivity |].
  apply (sm_list_is_base_minus_excluded (assoc_env []) 95 eq_refl).
Defined.

(** C3 (as stated): at version 75 the list is the base list minus
    {"80","86","75"}, i.e. ["30","52","60","61","70"].  It is not: the
    source also drops "70" (75 < 90) and "60", "61" (75 < 80). *)
Lemma sm_list_75_counterexample :
  get_cuda_sm_list (assoc_env []) 75 <> ["30"; "52"; "60"; "61"; "70"].
Proof. vm_compute. discriminate. Qed.

(** C3 (amended): with [CUDA_SM_LIST] unset, [get_cuda_sm_list] at
    version 75 is the base list minus {"80","86","75","70","60","61"},
    that is ["30","52"]. *)
Theorem sm_list_75 (env : environ) (Hsm : env "CUDA_SM_LIST" = None) :
  get_cuda_sm_list env 75
  = filter (fun sm => negb (py_in sm ["80"; "86"; "75"; "70"; "60"; "61"]))
      base_sm_list
  /\ get_cuda_sm_list env 75 = ["30"; "52"].
Proof.
  unfold get_cuda_sm_list. rewrite Hsm. split; reflexivity.
Qed.

Lemma sm_list_75_witness :
  assoc_env [("CUDA_ARCH", "61")] "CUDA_SM_LIST" = None
  /\ get_cuda_sm_list (assoc_env [("CUDA_ARCH", "61")]) 75 = ["30"; "52"].
Proof.
  split; [reflexivity |].
  apply (sm_list_75 (assoc_env [("CUDA_ARCH", "61")]) eq_refl).
Defined.

(** ** CompilerDispatcher *)

(** C5: after a ".cu" compile, [compiler_so] is the one before it,
    whether the super-class step returns or raises, and even if it
    changed [compiler_so] itself (or [set_executable] raised before it). *)
Theorem _compile_restores_compiler_so split_quoted base_compile CUDA self
    obj src ext cc_args extra_postargs pp_opts
    (Hcu : splitext_ext src = ".cu") :
  compiler_so (fst (_compile split_quoted base_compile CUDA self
                      obj src ext cc_args extra_postargs pp_opts))
  = compiler_so self.
Proof.
  unfold _compile, set_executable_so. rewrite Hcu. simpl.
  destruct (split_quoted (cfg_nvcc CUDA)); [| reflexivity].
  destruct (base_compile _ _ _ _ _ _ _). reflexivity.
Qed.

(** A super-class step that clobbers [compiler_so] and fails. *)
Definition failing_compile (self : ccompiler) (obj src ext : string)
    (cc_args extra_postargs pp_opts : list string)
  : ccompiler * pyresult unit :=
  (with_compiler_so self ["broken"], Raise (CompileError [src])).

Definition sample_config : cuda_config :=
  {| cfg_home := "/usr/local/cuda-11.0";
     cfg_nvcc := "/usr/local/cuda-11.0/bin/nvcc";
     cfg_include := "/usr/local/cuda-11.0/include";
     cfg_lib64 := "/usr/local/cuda-11.0/lib64";
     cfg_post_args := ["-arch=sm_52"; "-O2"] |}.

Lemma _compile_restores_compiler_so_witness :
  splitext_ext "cuda/kernel.cu" = ".cu"
  /\ snd (_compile (fun s => Ok [s]) failing_compile sample_config
            {| compiler_so := ["gcc"]; spawned := [] |}
            "kernel.o" "cuda/kernel.cu" ".cu" [] [] [])
     = Raise (CompileError ["cuda/kernel.cu"])
  /\ compiler_so (fst (_compile (fun s => Ok [s]) failing_compile sample_config
            {| compiler_so := ["gcc"]; spawned := [] |}
            "kernel.o" "cuda/kernel.cu" ".cu" [] [] []))
     = ["gcc"].
Proof.
  split; [reflexivity |]. split; [reflexivity |].
  apply (_compile_restores_compiler_so (fun s => Ok [s]) failing_compile
           sample_config {| compiler_so := ["gcc"]; spawned := [] |}
           "kernel.o" "cuda/kernel.cu" ".cu" [] [] []).
  reflexivity.
Defined.




(** C8: with a configuration, the compiler [build_ext] gets is
    [_UnixCCompiler] on every platform but "win32"; on "win32" the
    wrapper reads the global [_MSVCCompiler], which the module never
    defines, and [NameError] escapes instead of a Windows compiler. *)
Theorem build_ext_compiler_selection cfg platform default self_compiler
    dry_run force :
  build_ext_compiler (Some cfg) platform default self_compiler dry_run force
  = if String.eqb platform "win32" then Raise (NameError "_MSVCCompiler")
    else Ok (ModuleCompiler "_UnixCCompiler" dry_run force).
Proof.
  unfold build_ext_compiler, _wrap_new_compiler, new_compiler.
  simpl. destruct (String.eqb platform "win32"); reflexivity.
Qed.

(** ** ToolchainLocator *)

(** The first entry of [cudaconfig] whose path does not exist. *)
Definition first_missing (w : World) (items : list (string * string))
  : option (string * string) :=
  find (fun kv => negb (w_exists w (snd kv))) items.

Lemma validate_first_missing w items :
  validate w items
  = match first_missing w items with
    | None => ([], Ok true)
    | Some (k, v) => ([WarnPathMissing k v], Ok false)
    end.
Proof.
  unfold first_missing. induction items as [| [k v] rest IH]; simpl.
  - reflexivity.
  - destruct (w_exists w v); simpl; [exact IH | reflexivity].
Qed.

Lemma first_missing_Some w items k v :
  first_missing w items = Some (k, v) -> w_exists w v = false.
Proof.
  unfold first_missing. intros H. apply find_some in H as [_ H].
  simpl in H. destruct (w_exists w v); [discriminate | reflexivity].
Qed.

Lemma first_missing_None w items k v :
  first_missing w items = None -> In (k, v) items -> w_exists w v = true.
Proof.
  unfold first_missing. intros H Hin.
  pose proof (find_none _ _ H (k, v) Hin) as Hn. simpl in Hn.
  destruct (w_exists w v); [reflexivity | discriminate].
Qed.

(** [locate_cuda] once the home is found and the version parsed: the
    result is decided by the validation loop. *)
Lemma locate_cuda_after_parse w home nvcc l1 l2 major minor
    (Hdisc : discover_home w = (l1, Ok (Some (home, nvcc))))
    (Hparse : parse_cuda_ver w home = (l2, Ok (major, minor))) :
  let v := 10 * major + minor in
  let env := w_environ w in
  let pa := assemble_post_args (get_cuda_arch env v) (get_cuda_sm_list env v)
              (get_cuda_compute env v) in
  locate_cuda w
  = (l1 ++ l2 ++ [PrintCudaVer major minor; PrintPostArgs pa]
        ++ fst (validate w (cudaconfig_items w home nvcc)),
     match snd (validate w (cudaconfig_items w home nvcc)) with
     | Ok true =>
         Ok (Some {| cfg_home := home; cfg_nvcc := nvcc;
                     cfg_include := w_join w home "include";
                     cfg_lib64 := platform_lib64 w home;
                     cfg_post_args :=
                       (if w_half_precision w then drop_52 pa else pa)
                       ++ platform_args w |})
     | Ok false => Ok None
     | Raise e => Raise e
     end).
Proof.
  intros v env pa. unfold locate_cuda.
  rewrite (bind_Ok _ _ _ _ Hdisc). cbv beta iota.
  unfold locate_from_home. rewrite !validate_first_missing.
  rewrite (bind_Ok _ _ _ _ Hparse).
  destruct (first_missing w (cudaconfig_items w home nvcc)) as [[k val] |];
    reflexivity.
Qed.

Lemma locate_cuda_Some_inv w l cfg :
  locate_cuda w = (l, Ok (Some cfg)) ->
  exists home nvcc l1 l2 major minor,
    discover_home w = (l1, Ok (Some (home, nvcc)))
    /\ parse_cuda_ver w home = (l2, Ok (major, minor))
    /\ first_missing w (cudaconfig_items w home nvcc) = None.
Proof.
  unfold locate_cuda. intros H.
  apply bind_Ok_inv in H as (l1 & found & l2 & Hdisc & Hk & _).
  destruct found as [[home nvcc] |]; [| discriminate].
  unfold locate_from_home in Hk.
  apply bind_Ok_inv in Hk as (l3 & [major minor] & l4 & Hparse & Hk & _).
  exists home, nvcc, l1, l3, major, minor. split; [exact Hdisc |].
  split; [exact Hparse |].
  rewrite validate_first_missing in Hk.
  destruct (first_missing w (cudaconfig_items w home nvcc)) as [[k val] |];
    [| reflexivity].
  simpl in Hk. discriminate.
Qed.

(** The [post_args] of a configuration [locate_cuda] returns. *)
Lemma locate_cuda_post_args w l cfg :
  locate_cuda w = (l, Ok (Some cfg)) ->
  exists v,
    let env := w_environ w in
    let pa := assemble_post_args (get_cuda_arch env v)
                (get_cuda_sm_list env v) (get_cuda_compute env v) in
    cfg_post_args cfg
    = (if w_half_precision w then drop_52 pa else pa) ++ platform_args w.
Proof.
  intros H.
  destruct (locate_cuda_Some_inv _ _ _ H)
    as (home & nvcc & l1 & l2 & major & minor & Hdisc & Hparse & Hnone).
  rewrite (locate_cuda_after_parse _ _ _ _ _ _ _ Hdisc Hparse) in H.
  rewrite validate_first_missing, Hnone in H. simpl in H.
  inversion H; subst. exists (10 * major + minor). reflexivity.
Qed.

Definition home_11_0 : string := "/usr/local/cuda-11.0".

(** A Linux host with [CUDA_HOME] set, on which [exists_] decides which
    paths exist. *)
Definition linux_cuda_home (home : string) (exists_ : string -> bool)
    (half : bool) : World :=
  posix_world "linux" [("CUDA_HOME", home)] exists_ half.

(** C6: once the home is found and its version parsed (the
    parse raises on a malformed name and the assertion on a version
    below 70, both before validation), if home, include or lib is
    missing, locate() writes as its last event the warning for the first
    missing entry of [cudaconfig] (order home, nvcc, include, lib64; the
    nvcc path is validated too) and returns [None]. *)
Theorem locate_cuda_missing_dir_discards w home nvcc l1 l2 major minor
    (Hdisc : discover_home w = (l1, Ok (Some (home, nvcc))))
    (Hparse : parse_cuda_ver w home = (l2, Ok (major, minor)))
    (Hmissing : w_exists w home = false
                \/ w_exists w (w_join w home "include") = false
                \/ w_exists w (platform_lib64 w home) = false) :
  exists k v pre,
    first_missing w (cudaconfig_items w home nvcc) = Some (k, v)
    /\ w_exists w v = false
    /\ locate_cuda w = (pre ++ [WarnPathMissing k v], Ok None).
Proof.
  rewrite (locate_cuda_after_parse _ _ _ _ _ _ _ Hdisc Hparse).
  rewrite validate_first_missing.
  destruct (first_missing w (cudaconfig_items w home nvcc)) as [[k v] |]
    eqn:Hfm.
  - exists k, v, (l1 ++ l2 ++ [PrintCudaVer major minor;
      PrintPostArgs (assemble_post_args
        (get_cuda_arch (w_environ w) (10 * major + minor))
        (get_cuda_sm_list (w_environ w) (10 * major + minor))
        (get_cuda_compute (w_environ w) (10 * major + minor)))]).
    split; [reflexivity |]. split; [exact (first_missing_Some _ _ _ _ Hfm) |].
    simpl. rewrite <- !app_assoc. reflexivity.
  - exfalso. unfold cudaconfig_items in Hfm.
    destruct Hmissing as [H | [H | H]];
      [ rewrite (first_missing_None _ _ "home" _ Hfm) in H
      | rewrite (first_missing_None _ _ "include" _ Hfm) in H
      | rewrite (first_missing_None _ _ "lib64" _ Hfm) in H ];
      try discriminate; simpl; auto 6.
Qed.

Lemma locate_cuda_missing_dir_discards_witness :
  let w := linux_cuda_home home_11_0
             (fun p => negb (String.eqb p "/usr/local/cuda-11.0/include"))
             false in
  discover_home w = ([], Ok (Some (home_11_0, "/usr/local/cuda-11.0/bin/nvcc")))
  /\ parse_cuda_ver w home_11_0 = ([], Ok (11, 0))
  /\ exists k v pre,
       first_missing w (cudaconfig_items w home_11_0
                          "/usr/local/cuda-11.0/bin/nvcc") = Some (k, v)
       /\ w_exists w v = false
       /\ locate_cuda w = (pre ++ [WarnPathMissing k v], Ok None).
Proof.
  intros w. split; [reflexivity |]. split; [reflexivity |].
  apply (locate_cuda_missing_dir_discards w home_11_0
           "/usr/local/cuda-11.0/bin/nvcc" [] [] 11 0 eq_refl eq_refl).
  right. left. reflexivity.
Defined.

(** The nvcc flag of one entry of the sm list. *)
Definition gencode_sm (sm : string) : string :=
  ("-gencode=arch=compute_" ++ sm ++ ",code=sm_" ++ sm)%string.

(** C7: with [HALF_PRECISION] off (its value in the module), the
    [post_args] of a configuration locate() returns begin with
    "-arch=sm_<arch>", one "-gencode=arch=compute_<sm>,code=sm_<sm>" per
    entry of the sm list in order, "-gencode=arch=compute_<compute>,
    code=compute_<compute>", then "--ptxas-options=-v" and "-O2", for
    the arch, sm list and compute resolved for the parsed version. *)
Theorem locate_cuda_post_args_prefix w (Hhalf : w_half_precision w = false) :
  match locate_cuda w with
  | (_, Ok (Some cfg)) =>
      exists v tail,
        let env := w_environ w in
        let arch := get_cuda_arch env v in
        let compute := get_cuda_compute env v in
        cfg_post_args cfg
        = (["-arch=sm_" ++ arch]%string
           ++ map gencode_sm (get_cuda_sm_list env v)
           ++ ["-gencode=arch=compute_" ++ compute ++ ",code=compute_"
                 ++ compute; "--ptxas-options=-v"; "-O2"]%string) ++ tail
  | _ => True
  end.
Proof.
  destruct (locate_cuda w) as [l [[cfg |] | e]] eqn:H; trivial.
  destruct (locate_cuda_post_args _ _ _ H) as [v Hpa].
  exists v, (platform_args w). rewrite Hpa, Hhalf. reflexivity.
Qed.

Lemma locate_cuda_post_args_prefix_witness :
  let w := linux_cuda_home home_11_0 (fun _ => true) false in
  w_half_precision w = false
  /\ match locate_cuda w with
     | (_, Ok (Some cfg)) =>
         exists v tail,
           let env := w_environ w in
           let arch := get_cuda_arch env v in
           let compute := get_cuda_compute env v in
           cfg_post_args cfg
           = (["-arch=sm_" ++ arch]%string
              ++ map gencode_sm (get_cuda_sm_list env v)
              ++ ["-gencode=arch=compute_" ++ compute ++ ",code=compute_"
                    ++ compute; "--ptxas-options=-v"; "-O2"]%string) ++ tail
     | _ => True
     end.
Proof.
  intros w. split; [reflexivity |].
  apply (locate_cuda_post_args_prefix w eq_refl).
Defined.

Lemma count_occ_drop_52 (l : list string) (flag : string) :
  count_occ string_dec (drop_52 l) flag
  = if py_contains "52" flag then 0%nat else count_occ string_dec l flag.
Proof.
  unfold drop_52. induction l as [| x l IH]; simpl.
  - destruct (py_contains "52" flag); reflexivity.
  - destruct (py_contains "52" x) eqn:Hx; simpl.
    + rewrite IH. destruct (string_dec x flag) as [-> |]; [rewrite Hx |];
        destruct (py_contains "52" flag); reflexivity.
    + destruct (string_dec x flag) as [-> |].
      * rewrite IH, Hx. reflexivity.
      * exact IH.
Qed.

Lemma platform_args_no_52 w flag :
  In flag (platform_args w) -> py_contains "52" flag = false.
Proof.
  unfold platform_args.
  destruct (String.eqb (w_platform w) "win32"), (w_half_precision w);
    simpl; intros H; repeat destruct H as [<- | H]; try reflexivity;
    contradiction.
Qed.

(** C9: with [HALF_PRECISION] on, the [post_args] of a configuration
    locate() returns are the assembled flags without those whose text
    contains "52", followed by the platform flags: every flag containing
    "52" is gone, and every other flag occurs exactly as often as in the
    unfiltered list. *)
Theorem half_precision_drops_52_flags w (Hhalf : w_half_precision w = true) :
  match locate_cuda w with
  | (_, Ok (Some cfg)) =>
      exists v,
        let env := w_environ w in
        let pa := assemble_post_args (get_cuda_arch env v)
                    (get_cuda_sm_list env v) (get_cuda_compute env v) in
        cfg_post_args cfg = drop_52 pa ++ platform_args w
        /\ forall flag,
             count_occ string_dec (cfg_post_args cfg) flag
             = if py_contains "52" flag then 0%nat
               else count_occ string_dec (pa ++ platform_args w) flag
  | _ => True
  end.
Proof.
  destruct (locate_cuda w) as [l [[cfg |] | e]] eqn:H; trivial.
  destruct (locate_cuda_post_args _ _ _ H) as [v Hpa].
  rewrite Hhalf in Hpa. exists v. split; [exact Hpa |].
  intros flag. rewrite Hpa, !count_occ_app, count_occ_drop_52.
  destruct (py_contains "52" flag) eqn:Hf; [| reflexivity].
  assert (Hn : ~ In flag (platform_args w)).
  { intros Hin. rewrite (platform_args_no_52 _ _ Hin) in Hf. discriminate. }
  rewrite (proj1 (count_occ_not_In string_dec _ _) Hn). reflexivity.
Qed.

Lemma half_precision_drops_52_flags_witness :
  let w := linux_cuda_home home_11_0 (fun _ => true) true in
  w_half_precision w = true
  /\ match locate_cuda w with
     | (_, Ok (Some cfg)) =>
         exists v,
           let env := w_environ w in
           let pa := assemble_post_args (get_cuda_arch env v)
                       (get_cuda_sm_list env v) (get_cuda_compute env v) in
           cfg_post_args cfg = drop_52 pa ++ platform_args w
           /\ forall flag,
                count_occ string_dec (cfg_post_args cfg) flag
                = if py_contains "52" flag then 0%nat
                  else count_occ string_dec (pa ++ platform_args w) flag
     | _ => True
     end.
Proof.
  intros w. split; [reflexivity |].
  apply (half_precision_drops_52_flags w eq_refl).
Defined.

(** C10: the version parse is partial.  With CUDA_HOME=/opt/cuda and
    every path present, the base name "cuda" has no "-", the fallback
    split gives ["cuda"], and [int("cuda")] raises [ValueError] out of
    locate(): no warning is written and nothing is returned. *)
Theorem locate_cuda_unversioned_home_raises :
  let w := linux_cuda_home "/opt/cuda" (fun _ => true) false in
  discover_home w = ([], Ok (Some ("/opt/cuda", "/opt/cuda/bin/nvcc")))
  /\ locate_cuda w = ([], Raise (ValueError "cuda")).
Proof. split; reflexivity. Qed.

(** * Further properties of the module *)

(** ** [str.split] and [find_in_path] *)

Lemma split_on_cons sep s : exists piece pieces, split_on sep s = piece :: pieces.
Proof.
  induction s as [| c rest [piece [pieces IH]]]; simpl.
  - eexists _, _. reflexivity.
  - rewrite IH. destruct (Ascii.eqb c sep); eexists _, _; reflexivity.
Qed.

Lemma split_on_sep sep rest :
  split_on sep (String sep rest) = "" :: split_on sep rest.
Proof.
  simpl. destruct (split_on_cons sep rest) as (piece & pieces & ->).
  rewrite Ascii.eqb_refl. reflexivity.
Qed.

Lemma concat_String_cons sep c p ps :
  String.concat sep (String c p :: ps) = String c (String.concat sep (p :: ps)).
Proof. destruct ps; reflexivity. Qed.

(** [",".join(s.split(","))] gives [s] back: [str.split] with a
    one-character separator loses nothing, so a [CUDA_SM_LIST] value is
    exactly its entries joined by commas. *)
Theorem split_on_join (sep : ascii) (s : string) :
  String.concat (String sep "") (split_on sep s) = s.
Proof.
  induction s as [| c rest IH]; [reflexivity |].
  simpl. destruct (split_on_cons sep rest) as (piece & pieces & Hs).
  rewrite Hs in *. destruct (Ascii.eqb c sep) eqn:Hc.
  - apply Ascii.eqb_eq in Hc. subst c.
    transitivity (String sep (String.concat (String sep "") (piece :: pieces)));
      [reflexivity | rewrite IH; reflexivity].
  - rewrite concat_String_cons, IH. reflexivity.
Qed.

Lemma find_in_dirs_Some w name dirs r :
  find_in_dirs w name dirs = Some r ->
  exists pre d post,
    dirs = pre ++ d :: post
    /\ w_exists w (w_join w d name) = true
    /\ r = w_abspath w (w_join w d name)
    /\ forall d', In d' pre -> w_exists w (w_join w d' name) = false.
Proof.
  induction dirs as [| d rest IH]; simpl; [discriminate |].
  destruct (w_exists w (w_join w d name)) eqn:He.
  - intros H. inversion H; subst. exists [], d, rest.
    repeat split; auto. intros d' [].
  - intros H. destruct (IH H) as (pre & d0 & post & -> & He0 & -> & Hpre).
    exists (d :: pre), d0, post. repeat split; auto.
    intros d' [<- | Hin]; auto.
Qed.

(** [find_in_path] returns the absolute path of [name] in the first
    directory of the search path, in order, where it exists. *)
Theorem find_in_path_first_match w name path r
    (H : find_in_path w name path = Some r) :
  exists pre d post,
    split_on (w_pathsep w) path = pre ++ d :: post
    /\ w_exists w (w_join w d name) = true
    /\ r = w_abspath w (w_join w d name)
    /\ forall d', In d' pre -> w_exists w (w_join w d' name) = false.
Proof. exact (find_in_dirs_Some _ _ _ _ H). Qed.

Definition bin_world : World :=
  linux_cuda_home "" (fun p => String.eqb p "/usr/local/cuda/bin/nvcc") false.

Lemma find_in_path_first_match_witness :
  find_in_path bin_world "nvcc" "/bin:/usr/local/cuda/bin:/opt/bin"
    = Some "/usr/local/cuda/bin/nvcc"
  /\ exists pre d post,
       split_on ":" "/bin:/usr/local/cuda/bin:/opt/bin" = pre ++ d :: post
       /\ w_exists bin_world (w_join bin_world d "nvcc") = true
       /\ "/usr/local/cuda/bin/nvcc" = w_abspath bin_world (w_join bin_world d "nvcc")
       /\ forall d', In d' pre -> w_exists bin_world (w_join bin_world d' "nvcc") = false.
Proof.
  split; [reflexivity |].
  exact (find_in_path_first_match bin_world "nvcc"
           "/bin:/usr/local/cuda/bin:/opt/bin" _ eq_refl).
Defined.

(** [find_in_path] returns [None] exactly when [name] exists in no
    directory of the search path. *)
Theorem find_in_path_None w name path :
  find_in_path w name path = None
  <-> forall d, In d (split_on (w_pathsep w) path) ->
        w_exists w (w_join w d name) = false.
Proof.
  unfold find_in_path. induction (split_on (w_pathsep w) path) as [| d rest IH];
    simpl.
  - split; [intros _ d [] | reflexivity].
  - destruct (w_exists w (w_join w d name)) eqn:He; split.
    + discriminate.
    + intros H. rewrite (H d (or_introl eq_refl)) in He. discriminate.
    + intros H d' [<- | Hin]; [exact He | exact (proj1 IH H d' Hin)].
    + intros H. apply IH. intros d' Hin. apply H. auto.
Qed.

(** With [posixpath.join], an empty entry of the search path is the
    current directory: a [PATH] that starts with the separator first
    tests the relative path [name]. *)
Theorem find_in_path_leading_empty_entry w name rest
    (Hjoin : w_join w = posix_join) :
  find_in_path w name (String (w_pathsep w) rest)
  = if w_exists w name then Some (w_abspath w name)
    else find_in_path w name rest.
Proof.
  unfold find_in_path. rewrite split_on_sep. simpl. rewrite Hjoin.
  replace (posix_join "" name) with name
    by (unfold posix_join; destruct (starts_with "/" name); reflexivity).
  reflexivity.
Qed.

Lemma find_in_path_leading_empty_entry_witness :
  w_join bin_world = posix_join
  /\ find_in_path bin_world "nvcc" ":/usr/local/cuda/bin"
     = if w_exists bin_world "nvcc" then Some (w_abspath bin_world "nvcc")
       else find_in_path bin_world "nvcc" "/usr/local/cuda/bin".
Proof.
  split; [reflexivity |].
  exact (find_in_path_leading_empty_entry bin_world "nvcc"
           "/usr/local/cuda/bin" eq_refl).
Defined.

(** ** Discovery of the home directory *)

(** The name of the nvcc binary on the host. *)
Definition nvcc_bin_of (w : World) : string :=
  if starts_with "win" (w_platform w) then "nvcc.exe" else "nvcc".

(** CUDA_PATH wins over CUDAHOME, which wins over CUDA_HOME; when one of
    them is set, its value is the home, nvcc is [home/bin/<binary>], no
    event is written and [PATH] is never read (an unset [PATH] raises
    nothing). *)
Theorem discover_home_env_priority w h
    (Hset : w_environ w "CUDA_PATH" = Some h
            \/ (w_environ w "CUDA_PATH" = None
                /\ w_environ w "CUDAHOME" = Some h)
            \/ (w_environ w "CUDA_PATH" = None
                /\ w_environ w "CUDAHOME" = None
                /\ w_environ w "CUDA_HOME" = Some h)) :
  discover_home w = ([], Ok (Some (h, join3 w h "bin" (nvcc_bin_of w)))).
Proof.
  unfold discover_home, nvcc_bin_of. simpl.
  destruct Hset as [H | [[H1 H] | (H1 & H2 & H)]];
    rewrite ?H1, ?H2, H; reflexivity.
Qed.

Lemma discover_home_env_priority_witness :
  let w := posix_world "linux" [("CUDA_HOME", "/a"); ("CUDAHOME", "/b")]
             (fun _ => true) false in
  (w_environ w "CUDA_PATH" = Some "/b"
   \/ (w_environ w "CUDA_PATH" = None /\ w_environ w "CUDAHOME" = Some "/b")
   \/ (w_environ w "CUDA_PATH" = None /\ w_environ w "CUDAHOME" = None
       /\ w_environ w "CUDA_HOME" = Some "/b"))
  /\ discover_home w = ([], Ok (Some ("/b", join3 w "/b" "bin" (nvcc_bin_of w)))).
Proof.
  intros w. assert (Hs : w_environ w "CUDA_PATH" = Some "/b"
   \/ (w_environ w "CUDA_PATH" = None /\ w_environ w "CUDAHOME" = Some "/b")
   \/ (w_environ w "CUDA_PATH" = None /\ w_environ w "CUDAHOME" = None
       /\ w_environ w "CUDA_HOME" = Some "/b")).
  { right. left. split; reflexivity. }
  split; [exact Hs | exact (discover_home_env_priority w "/b" Hs)].
Defined.

(** With none of the home variables set and [PATH] unset,
    [os.environ['PATH']] raises [KeyError] out of locate(), before any
    event. *)
Theorem locate_cuda_no_path_key_error w
    (H1 : w_environ w "CUDA_PATH" = None) (H2 : w_environ w "CUDAHOME" = None)
    (H3 : w_environ w "CUDA_HOME" = None) (Hp : w_environ w "PATH" = None) :
  locate_cuda w = ([], Raise (KeyError "PATH")).
Proof.
  unfold locate_cuda, discover_home, environ_get. simpl.
  rewrite H1, H2, H3, Hp. reflexivity.
Qed.

Lemma locate_cuda_no_path_key_error_witness :
  let w := posix_world "linux" [] (fun _ => true) false in
  w_environ w "CUDA_PATH" = None /\ w_environ w "CUDAHOME" = None
  /\ w_environ w "CUDA_HOME" = None /\ w_environ w "PATH" = None
  /\ locate_cuda w = ([], Raise (KeyError "PATH")).
Proof.
  intros w. repeat (split; [reflexivity |]).
  exact (locate_cuda_no_path_key_error w eq_refl eq_refl eq_refl eq_refl).
Defined.

(** With none of the home variables set and the binary in no directory
    of [PATH], locate() writes the one "nvcc binary could not be
    located" warning and returns [None]. *)
Theorem locate_cuda_nvcc_not_found w p
    (H1 : w_environ w "CUDA_PATH" = None) (H2 : w_environ w "CUDAHOME" = None)
    (H3 : w_environ w "CUDA_HOME" = None) (Hp : w_environ w "PATH" = Some p)
    (Hnone : forall d, In d (split_on (w_pathsep w) p) ->
               w_exists w (w_join w d (nvcc_bin_of w)) = false) :
  locate_cuda w = ([WarnNvccNotFound], Ok None).
Proof.
  apply find_in_path_None in Hnone. unfold nvcc_bin_of in Hnone.
  unfold locate_cuda, discover_home, environ_get. cbv zeta.
  cbn [first_env]. rewrite H1, H2, H3, Hp. cbn [bind ret].
  rewrite Hnone. reflexivity.
Qed.

Lemma locate_cuda_nvcc_not_found_witness :
  let w := posix_world "linux" [("PATH", "/bin:/usr/bin")] (fun _ => false)
             false in
  w_environ w "CUDA_PATH" = None /\ w_environ w "CUDAHOME" = None
  /\ w_environ w "CUDA_HOME" = None
  /\ w_environ w "PATH" = Some "/bin:/usr/bin"
  /\ locate_cuda w = ([WarnNvccNotFound], Ok None).
Proof.
  intros w. repeat (split; [reflexivity |]).
  apply (locate_cuda_nvcc_not_found w "/bin:/usr/bin" eq_refl eq_refl eq_refl
           eq_refl).
  intros d _. reflexivity.
Defined.

(** ** What a returned configuration guarantees *)

Lemma parse_cuda_ver_min w home l major minor :
  parse_cuda_ver w home = (l, Ok (major, minor)) -> 10 * major + minor >= 70.
Proof.
  unfold parse_cuda_ver. intros H.
  apply bind_Ok_inv in H as (? & s0 & ? & _ & H & _).
  apply bind_Ok_inv in H as (? & ma & ? & _ & H & _).
  apply bind_Ok_inv in H as (? & s1 & ? & _ & H & _).
  apply bind_Ok_inv in H as (? & mi & ? & _ & H & _).
  destruct (10 * ma + mi >=? 70) eqn:Hge; [| discriminate].
  inversion H; subst. apply Z.geb_ge in Hge. exact Hge.
Qed.

(** Every configuration locate() returns has its home, nvcc, include and
    lib paths present on the file system, include under [home/include],
    lib under [home/lib64] ([home/lib/x64] on win32), and comes from a
    home whose base name parses to a version of at least 70. *)
Theorem locate_cuda_config_valid w l cfg
    (H : locate_cuda w = (l, Ok (Some cfg))) :
  w_exists w (cfg_home cfg) = true /\ w_exists w (cfg_nvcc cfg) = true
  /\ w_exists w (cfg_include cfg) = true /\ w_exists w (cfg_lib64 cfg) = true
  /\ cfg_include cfg = w_join w (cfg_home cfg) "include"
  /\ cfg_lib64 cfg = platform_lib64 w (cfg_home cfg)
  /\ exists l2 major minor,
       parse_cuda_ver w (cfg_home cfg) = (l2, Ok (major, minor))
       /\ 10 * major + minor >= 70.
Proof.
  destruct (locate_cuda_Some_inv _ _ _ H)
    as (home & nvcc & l1 & l2 & major & minor & Hdisc & Hparse & Hnone).
  rewrite (locate_cuda_after_parse _ _ _ _ _ _ _ Hdisc Hparse) in H.
  rewrite validate_first_missing, Hnone in H. simpl in H.
  inversion H; subst; simpl.
  unfold cudaconfig_items in Hnone.
  repeat split;
    try (eapply first_missing_None; [exact Hnone | simpl; auto 6]).
  exists l2, major, minor. split; [exact Hparse |].
  exact (parse_cuda_ver_min _ _ _ _ _ Hparse).
Qed.

Lemma locate_cuda_config_valid_witness :
  let w := linux_cuda_home home_11_0 (fun _ => true) false in
  exists l cfg, locate_cuda w = (l, Ok (Some cfg))
  /\ w_exists w (cfg_home cfg) = true /\ w_exists w (cfg_nvcc cfg) = true
  /\ w_exists w (cfg_include cfg) = true /\ w_exists w (cfg_lib64 cfg) = true
  /\ cfg_include cfg = w_join w (cfg_home cfg) "include"
  /\ cfg_lib64 cfg = platform_lib64 w (cfg_home cfg)
  /\ exists l2 major minor,
       parse_cuda_ver w (cfg_home cfg) = (l2, Ok (major, minor))
       /\ 10 * major + minor >= 70.
Proof.
  intros w.
  destruct (locate_cuda w) as [l [[cfg |] | e]] eqn:H;
    [| discriminate H | discriminate H].
  exists l, cfg. split; [reflexivity |].
  exact (locate_cuda_config_valid w l cfg H).
Defined.

(** The warnings among the events. *)
Definition is_warning (ev : event) : bool :=
  match ev with
  | WarnNvccNotFound | WarnPathMissing _ _ => true
  | PrintCudaVer _ _ | PrintPostArgs _ => false
  end.

Lemma discover_home_log w l r :
  discover_home w = (l, r) -> l = [] \/ (l = [WarnNvccNotFound] /\ r = Ok None).
Proof.
  unfold discover_home, environ_get.
  destruct (first_env _ _); [intros H; inversion H; auto |].
  destruct (w_environ w "PATH"); [| intros H; inversion H; auto].
  simpl. destruct (find_in_path _ _ _); intros H; inversion H; auto.
Qed.

Lemma bind_silent {A B} (m : M A) (k : A -> M B) :
  fst m = [] -> (forall a, fst (k a) = []) -> fst (bind m k) = [].
Proof.
  destruct m as [l [a | e]]; simpl; intros -> Hk; [| reflexivity].
  specialize (Hk a). destruct (k a). simpl in *. exact Hk.
Qed.

Lemma py_index_silent {A} (xs : list A) i : fst (py_index xs i) = [].
Proof. unfold py_index. destruct (nth_error xs i); reflexivity. Qed.

Lemma py_int_silent s : fst (py_int s) = [].
Proof. unfold py_int. destruct (py_int_opt s); reflexivity. Qed.

Lemma parse_cuda_ver_log w home : fst (parse_cuda_ver w home) = [].
Proof.
  unfold parse_cuda_ver.
  apply bind_silent; [apply py_index_silent | intros s0].
  apply bind_silent; [apply py_int_silent | intros ma].
  apply bind_silent; [apply py_index_silent | intros s1].
  apply bind_silent; [apply py_int_silent | intros mi].
  destruct (10 * ma + mi >=? 70); reflexivity.
Qed.

(** locate() writes at most one warning on every run: either the binary
    was not found, or one path failed validation, or neither. *)
Theorem locate_cuda_at_most_one_warning w :
  (List.length (filter is_warning (fst (locate_cuda w))) <= 1)%nat.
Proof.
  destruct (discover_home w) as [l1 r1] eqn:Hd.
  destruct (discover_home_log _ _ _ Hd) as [-> | [-> ->]].
  - destruct r1 as [[[home nvcc] |] | e].
    + destruct (parse_cuda_ver w home) as [l2 r2] eqn:Hp.
      pose proof (parse_cuda_ver_log w home) as Hl. rewrite Hp in Hl.
      simpl in Hl. subst l2. destruct r2 as [[major minor] | e].
      * rewrite (locate_cuda_after_parse w home nvcc [] [] major minor Hd Hp).
        rewrite validate_first_missing.
        destruct (first_missing w (cudaconfig_items w home nvcc))
          as [[k v] |]; simpl; lia.
      * unfold locate_cuda. rewrite (bind_Ok _ _ _ _ Hd). cbv beta iota.
        unfold locate_from_home. rewrite (bind_Raise _ _ _ _ Hp). simpl. lia.
    + unfold locate_cuda. rewrite (bind_Ok _ _ _ _ Hd). simpl. lia.
    + unfold locate_cuda. rewrite (bind_Raise _ _ _ _ Hd). simpl. lia.
  - unfold locate_cuda. rewrite (bind_Ok _ _ _ _ Hd). simpl. lia.
Qed.

(** ** The resolver beyond the tables *)

(** Each resolver reads one variable only: two environments that agree
    on [CUDA_ARCH] (resp. [CUDA_SM_LIST], [CUDA_COMPUTE]) give the same
    arch (resp. sm list, compute) for every version. *)
Theorem resolver_reads_own_variable (env1 env2 : environ) (v : Z) :
  (env1 "CUDA_ARCH" = env2 "CUDA_ARCH" ->
   get_cuda_arch env1 v = get_cuda_arch env2 v)
  /\ (env1 "CUDA_SM_LIST" = env2 "CUDA_SM_LIST" ->
      get_cuda_sm_list env1 v = get_cuda_sm_list env2 v)
  /\ (env1 "CUDA_COMPUTE" = env2 "CUDA_COMPUTE" ->
      get_cuda_compute env1 v = get_cuda_compute env2 v).
Proof.
  unfold get_cuda_arch, get_cuda_sm_list, get_cuda_compute.
  repeat split; intros H; rewrite H; reflexivity.
Qed.

Lemma NoDup_base_sm_list : NoDup base_sm_list.
Proof.
  unfold base_sm_list.
  repeat constructor; simpl; intuition discriminate.
Qed.

(** Without [CUDA_SM_LIST], the sm list of every version is a
    duplicate-free selection of the base list that always keeps "52". *)
Theorem sm_list_keeps_52 (env : environ) (v : Z)
    (Hsm : env "CUDA_SM_LIST" = None) :
  In "52" (get_cuda_sm_list env v)
  /\ incl (get_cuda_sm_list env v) base_sm_list
  /\ NoDup (get_cuda_sm_list env v).
Proof.
  unfold get_cuda_sm_list. rewrite Hsm. split; [| split].
  - apply filter_In. split; [simpl; auto |].
    unfold sm_filter_list.
    destruct (v >=? 110), (v =? 110), (v <? 100), (v <? 90), (v <? 80);
      reflexivity.
  - intros x Hx. apply filter_In in Hx. exact (proj1 Hx).
  - apply NoDup_filter, NoDup_base_sm_list.
Qed.

Lemma sm_list_keeps_52_witness :
  assoc_env [] "CUDA_SM_LIST" = None
  /\ In "52" (get_cuda_sm_list (assoc_env []) 75)
  /\ incl (get_cuda_sm_list (assoc_env []) 75) base_sm_list
  /\ NoDup (get_cuda_sm_list (assoc_env []) 75).
Proof.
  split; [reflexivity |].
  exact (sm_list_keeps_52 (assoc_env []) 75 eq_refl).
Defined.

(** Without [CUDA_SM_LIST], below 110 the sm list only grows with the
    version: every target of an older toolkit stays in a newer one. *)
Theorem sm_list_monotone_below_110 (env : environ) (v1 v2 : Z)
    (Hsm : env "CUDA_SM_LIST" = None) (Hle : v1 <= v2) (Hlt : v2 < 110) :
  incl (get_cuda_sm_list env v1) (get_cuda_sm_list env v2).
Proof.
  unfold get_cuda_sm_list. rewrite Hsm. intros x Hx.
  apply filter_In in Hx as [Hb Hn]. apply filter_In. split; [exact Hb |].
  revert Hn. unfold sm_filter_list.
  rewrite !Z.geb_leb.
  destruct (Z.leb_spec 110 v1); [lia |].
  destruct (Z.leb_spec 110 v2); [lia |].
  simpl in Hb. repeat destruct Hb as [<- | Hb]; try contradiction;
    split_Z_tests.
Qed.

Lemma sm_list_monotone_below_110_witness :
  assoc_env [] "CUDA_SM_LIST" = None /\ 75 <= 95 /\ 95 < 110
  /\ incl (get_cuda_sm_list (assoc_env []) 75) (get_cuda_sm_list (assoc_env []) 95).
Proof.
  split; [reflexivity |]. split; [lia |]. split; [lia |].
  apply (sm_list_monotone_below_110 (assoc_env []) 75 95 eq_refl); lia.
Defined.

(** Without [CUDA_SM_LIST], every version after 110 gets the same list:
    all base targets but "30". *)
Theorem sm_list_after_110 (env : environ) (v : Z)
    (Hsm : env "CUDA_SM_LIST" = None) (Hv : 110 < v) :
  get_cuda_sm_list env v = ["52"; "60"; "61"; "70"; "75"; "80"; "86"].
Proof.
  unfold get_cuda_sm_list, sm_filter_list. rewrite Hsm.
  rewrite Z.geb_leb. destruct (Z.leb_spec 110 v); [| lia].
  destruct (Z.eqb_spec v 110); [lia |]. reflexivity.
Qed.

Lemma sm_list_after_110_witness :
  assoc_env [] "CUDA_SM_LIST" = None /\ 110 < 200
  /\ get_cuda_sm_list (assoc_env []) 200
     = ["52"; "60"; "61"; "70"; "75"; "80"; "86"].
Proof.
  split; [reflexivity |]. split; [lia |].
  apply (sm_list_after_110 (assoc_env []) 200 eq_refl). lia.
Defined.

(** Without the overrides, every version from 120 on, and every version
    below 70 (which locate() rejects first), gets arch "90" and compute
    "90": there is no upper bound on the versions accepted. *)
Theorem arch_compute_fallback (env : environ) (v : Z)
    (Harch : env "CUDA_ARCH" = None) (Hcompute : env "CUDA_COMPUTE" = None)
    (Hv : 120 <= v \/ v < 70) :
  get_cuda_arch env v = "90" /\ get_cuda_compute env v = "90".
Proof.
  unfold get_cuda_arch, get_cuda_compute. rewrite Harch, Hcompute.
  split; split_Z_tests.
Qed.

Lemma arch_compute_fallback_witness :
  assoc_env [] "CUDA_ARCH" = None /\ assoc_env [] "CUDA_COMPUTE" = None
  /\ get_cuda_arch (assoc_env []) 130 = "90"
  /\ get_cuda_compute (assoc_env []) 130 = "90".
Proof.
  split; [reflexivity |]. split; [reflexivity |].
  apply (arch_compute_fallback (assoc_env []) 130 eq_refl eq_refl). lia.
Defined.

(** ** The dispatcher and the compiler hook beyond the claims *)





